(** * Load-test validators of the product-catalog API

    Shallow embedding of the two Locust scripts of the repository:
    - [testing-hw6/locustfile.py]: the [ProductSearchUser.search] task,
      which picks a query term and validates the search response by hand
      ([catch_response=True]);
    - [testing/locustfile.py]: the [SimpleEStoreUser] GET/POST tasks, which
      leave the classification of the response to Locust's default rule. *)

From Stdlib Require Import ZArith QArith String List Bool Lia.
From Stdlib Require Import Permutation DecimalZ.
Import ListNotations.
Open Scope string_scope.
Set Warnings "-register-all".

(* ------------------------------------------------------------------ *)
(** ** Python values *)

(** A Python [float] as produced by [json.loads]: a finite value (kept
    exactly as a rational), the infinities, or NaN ([json.loads] accepts
    [Infinity], [-Infinity] and [NaN]). *)
Inductive pyfloat :=
| FFin (q : Q)
| FPosInf
| FNegInf
| FNaN.

(** The Python objects [json.loads] builds: [None], [bool], [int], [float],
    [str], [list] and [dict] (with string keys). *)
Inductive pyval :=
| PNone
| PBool (b : bool)
| PInt (z : Z)
| PFloat (f : pyfloat)
| PStr (s : string)
| PList (xs : list pyval)
| PDict (kvs : list (string * pyval)).

(** Exceptions that can escape the validator. *)
Inductive exn :=
| AttributeError
| TypeError
| ValueError
| RecursionError.

(** [d.get(k, default)] on a [dict]: keys of a dict are distinct, the
    lookup returns the binding of [k] or [default]. *)
Fixpoint dict_get (d : list (string * pyval)) (k : string) (default : pyval)
  : pyval :=
  match d with
  | [] => default
  | (k', v) :: d' => if String.eqb k k' then v else dict_get d' k default
  end.

(** [k in d] on a [dict]. *)
Fixpoint dict_contains (d : list (string * pyval)) (k : string) : bool :=
  match d with
  | [] => false
  | (k', _) :: d' => String.eqb k k' || dict_contains d' k
  end.

(** Python [v != n] for an [int] literal [n]: never raises; [bool] is a
    subclass of [int], a [float] is compared exactly, every other type is
    unequal to an [int]. *)
Definition py_ne_int (v : pyval) (n : Z) : bool :=
  match v with
  | PBool b => negb (Z.eqb (Z.b2z b) n)
  | PInt z => negb (Z.eqb z n)
  | PFloat (FFin q) => negb (Qeq_bool q (inject_Z n))
  | PFloat _ => true
  | _ => true
  end.

(** Python [v > n] for an [int] literal [n]: defined on [bool], [int] and
    [float] (NaN compares false), [TypeError] on every other type. *)
Definition py_gt_int (v : pyval) (n : Z) : exn + bool :=
  match v with
  | PBool b => inr (Z.gtb (Z.b2z b) n)
  | PInt z => inr (Z.gtb z n)
  | PFloat (FFin q) => inr (negb (Qle_bool q (inject_Z n)))
  | PFloat FPosInf => inr true
  | PFloat FNegInf => inr false
  | PFloat FNaN => inr false
  | _ => inl TypeError
  end.

(** Decimal rendering of an [int] ([str(n)] / an f-string field). *)
Fixpoint uint_to_string (d : Decimal.uint) : string :=
  match d with
  | Decimal.Nil => ""
  | Decimal.D0 d => "0" ++ uint_to_string d
  | Decimal.D1 d => "1" ++ uint_to_string d
  | Decimal.D2 d => "2" ++ uint_to_string d
  | Decimal.D3 d => "3" ++ uint_to_string d
  | Decimal.D4 d => "4" ++ uint_to_string d
  | Decimal.D5 d => "5" ++ uint_to_string d
  | Decimal.D6 d => "6" ++ uint_to_string d
  | Decimal.D7 d => "7" ++ uint_to_string d
  | Decimal.D8 d => "8" ++ uint_to_string d
  | Decimal.D9 d => "9" ++ uint_to_string d
  end.

Definition z_to_dec (z : Z) : string :=
  match Z.to_int z with
  | Decimal.Pos u => uint_to_string u
  | Decimal.Neg u => "-" ++ uint_to_string u
  end.

(* ------------------------------------------------------------------ *)
(** ** testing-hw6/locustfile.py: the search task *)

Definition QUERIES : list string :=
  [ "alpha"; "beta"; "gamma"; "delta"; "omega";
    "electronics"; "books"; "home"; "toys"; "fashion";
    "product" ].

(** The arguments of the task's [self.client.get(...)] call: method, URL,
    statistics name, the [timeout] keyword and [catch_response]. (How the
    client library turns the [timeout] keyword into the request on the
    wire is not modelled.) *)
Record http_request := {
  method : string;
  url : string;
  req_name : string;
  timeout : Q;
  catch_response : bool
}.

(** [random.choice(QUERIES)] is [QUERIES[randbelow(len(QUERIES))]]: the
    task is parameterised by the drawn index [i]; an index out of range
    would raise [IndexError], which [randbelow] never produces. *)
Definition search_request (i : nat) : option http_request :=
  match nth_error QUERIES i with
  | Some q =>
      Some {| method := "GET";
              url := "/v1/products/search?q=" ++ q ++ "&limit=20";
              req_name := "/v1/products/search";
              timeout := 2;
              catch_response := true |}
  | None => None
  end.

(** The result of [resp.json()], that is [json.loads] of the body: the
    parsed value, [json.JSONDecodeError] on a body that is not JSON, or
    another exception [json.loads] lets through ([ValueError] for an
    integer literal over the interpreter's int/str digit limit,
    [RecursionError] for too deep a nesting). *)
Inductive json_outcome :=
| Parsed (v : pyval)
| DecodeError
| OtherParseError (e : exn).

(** The response as the validator sees it: [resp.status_code], and the
    outcome of [resp.json()]. *)
Record search_response := {
  status_code : Z;
  json_result : json_outcome
}.

(** What the task records through [resp.success()] / [resp.failure(msg)]. *)
Inductive outcome :=
| Success
| Failure (reason : string).

(** A run of the validator either records an outcome and returns, or
    raises out of the [with] block. *)
Inductive task_result :=
| Recorded (o : outcome)
| Raised (e : exn).

Section SearchValidator.

(** Python's [str()] of a value, used by the f-string of the [checked]
    failure; the results below hold for any rendering. *)
Variable py_str : pyval -> string.

(** The body of the [with self.client.get(...) as resp:] block of
    [ProductSearchUser.search] (lines 74-97). The first operation on
    [data] is [data.get], which raises [AttributeError] unless [data] is
    a [dict]. *)
Definition search_validate (resp : search_response) : task_result :=
  if negb (Z.eqb resp.(status_code) 200) then
    Recorded (Failure ("HTTP " ++ z_to_dec resp.(status_code)))
  else
    match resp.(json_result) with
    | DecodeError => Recorded (Failure "Invalid JSON")
    | OtherParseError e => Raised e
    | Parsed (PDict d) =>
        if py_ne_int (dict_get d "checked" PNone) 100 then
          Recorded (Failure ("checked != 100 (got "
                               ++ py_str (dict_get d "checked" PNone) ++ ")"))
        else
          match py_gt_int (dict_get d "count" (PInt 0)) 20 with
          | inl e => Raised e
          | inr true => Recorded (Failure "bad payload")
          | inr false =>
              if negb (dict_contains d "hits") then
                Recorded (Failure "bad payload")
              else Recorded Success
          end
    | Parsed _ => Raised AttributeError
    end.

End SearchValidator.

(** [str()] on the scalar values the tests below use ([None], [bool],
    [int], [str]); the [repr] of floats and containers is not rendered. *)
Definition py_str_scalars (v : pyval) : string :=
  match v with
  | PNone => "None"
  | PBool true => "True"
  | PBool false => "False"
  | PInt z => z_to_dec z
  | PStr s => s
  | _ => "..."
  end.

(* ------------------------------------------------------------------ *)
(** ** testing/locustfile.py: the Simple-eStore tasks *)

Definition PRODUCT_OK : Z := 12345.
Definition PRODUCT_404 : Z := 54321.
Definition PRODUCT_GET_500 : Z := 50000.
Definition PRODUCT_POST_500 : Z := 99999.

Definition VALID_BODY : pyval :=
  PDict [ ("sku", PStr "DEF-456-QWE");
          ("manufacturer", PStr "Beta Corp");
          ("category_id", PInt 456);
          ("weight", PInt 800);
          ("some_other_id", PInt 22) ].

Definition INVALID_BODY_MISSING : pyval :=
  PDict [ ("sku", PStr "");
          ("manufacturer", PStr "X");
          ("category_id", PInt 1);
          ("weight", PInt 100);
          ("some_other_id", PInt 1) ].

Definition MISMATCH_ID_BODY : pyval :=
  PDict [ ("product_id", PInt 999);
          ("sku", PStr "OK");
          ("manufacturer", PStr "OK");
          ("category_id", PInt 1);
          ("weight", PInt 100);
          ("some_other_id", PInt 1) ].

(** The [@task] methods of [SimpleEStoreUser]. *)
Inductive estore_task :=
| get_200 | get_404 | get_500
| post_204 | post_400_missing | post_400_mismatch | post_404 | post_500.

(** A request of an [HttpUser] task: method, path, headers, the object
    passed to [json.dumps] as the body, and the statistics name. *)
Record estore_request := {
  e_method : string;
  e_path : string;
  e_headers : list (string * string);
  e_body : option pyval;
  e_name : string
}.

Definition product_path (id : Z) : string := "/v1/products/" ++ z_to_dec id.
Definition details_path (id : Z) : string :=
  "/v1/products/" ++ z_to_dec id ++ "/details".

Definition json_headers : list (string * string) :=
  [("Content-Type", "application/json")].

Definition get_req (id : Z) (name : string) : estore_request :=
  {| e_method := "GET"; e_path := product_path id; e_headers := [];
     e_body := None; e_name := name |}.

Definition post_req (id : Z) (body : pyval) (name : string) : estore_request :=
  {| e_method := "POST"; e_path := details_path id; e_headers := json_headers;
     e_body := Some body; e_name := name |}.

Definition task_request (t : estore_task) : estore_request :=
  match t with
  | get_200 => get_req PRODUCT_OK "GET /v1/products/:id [200]"
  | get_404 => get_req PRODUCT_404 "GET /v1/products/:id [404]"
  | get_500 => get_req PRODUCT_GET_500 "GET /v1/products/:id [500]"
  | post_204 =>
      post_req PRODUCT_OK VALID_BODY "POST /v1/products/:id/details [204]"
  | post_400_missing =>
      post_req PRODUCT_OK INVALID_BODY_MISSING
               "POST /v1/products/:id/details [400-missing/invalid]"
  | post_400_mismatch =>
      post_req PRODUCT_OK MISMATCH_ID_BODY
               "POST /v1/products/:id/details [400-mismatch-id]"
  | post_404 =>
      post_req PRODUCT_404 VALID_BODY "POST /v1/products/:id/details [404]"
  | post_500 =>
      post_req PRODUCT_POST_500 VALID_BODY "POST /v1/products/:id/details [500]"
  end.

(** A response of Locust's [HttpSession]: the status code, and whether
    the request failed in transport (connection error or timeout, reported
    by Locust with status 0 and an attached error). *)
Record http_response := {
  h_status : Z;
  h_transport_error : bool
}.

(** The error Locust reports for a request. *)
Inductive request_error :=
| TransportError
| ClientError (code : Z)
| ServerError (code : Z).

(** Locust's default outcome of a request made without [catch_response]
    (library code, called by every task of [SimpleEStoreUser]): the
    response context manager calls [raise_for_status()], which raises the
    attached transport error, or [HTTPError] for a status in [400, 500)
    (client error) or [500, 600) (server error); the request is reported
    as a failure with that exception, and as a success otherwise. *)
Inductive request_outcome :=
| ReqSuccess
| ReqFailure (e : request_error).

Definition locust_default (r : http_response) : request_outcome :=
  if r.(h_transport_error) then ReqFailure TransportError
  else if (400 <=? r.(h_status))%Z && (r.(h_status) <? 500)%Z
  then ReqFailure (ClientError r.(h_status))
  else if (500 <=? r.(h_status))%Z && (r.(h_status) <? 600)%Z
  then ReqFailure (ServerError r.(h_status))
  else ReqSuccess.

(** One run of a task: the request it sends and the outcome Locust records
    for the response. No task inspects the response itself. *)
Definition run_task (t : estore_task) (r : http_response)
  : estore_request * request_outcome :=
  (task_request t, locust_default r).

(** The classification a task records, as a boolean. *)
Definition task_success (t : estore_task) (r : http_response) : bool :=
  match snd (run_task t r) with
  | ReqSuccess => true
  | ReqFailure _ => false
  end.

(* ------------------------------------------------------------------ *)
(** ** Predicates used to state the properties *)

(** A value on which Python's [>] against an [int] is defined. *)
Definition py_numeric (v : pyval) : bool :=
  match v with
  | PBool _ | PInt _ | PFloat _ => true
  | _ => false
  end.


(** The success condition of the code: as above, with a missing [count]
    standing for 0. *)
Definition validated_success (r : search_response) : Prop :=
  status_code r = 200%Z /\
  exists d, json_result r = Parsed (PDict d) /\
    py_ne_int (dict_get d "checked" PNone) 100 = false /\
    py_gt_int (dict_get d "count" (PInt 0)) 20 = inr false /\
    dict_contains d "hits" = true.

(** The responses on which the validator raises: a status-200 response
    whose body makes [resp.json()] raise something other than
    [json.JSONDecodeError], or whose body parses to a non-[dict], or to a
    [dict] with [checked == 100] and a [count] present but not a number. *)
Definition raising_response (r : search_response) : Prop :=
  status_code r = 200%Z /\
  ((exists e, json_result r = OtherParseError e) \/
   exists v, json_result r = Parsed v /\
    ((forall d, v <> PDict d) \/
     (exists d, v = PDict d /\
        py_ne_int (dict_get d "checked" PNone) 100 = false /\
        py_numeric (dict_get d "count" (PInt 0)) = false))).

(** Concrete responses. *)
Definition resp_no_count : search_response :=
  {| status_code := 200;
     json_result := Parsed (PDict [("checked", PInt 100); ("hits", PList [])]) |}.

Definition resp_null_count_no_hits : search_response :=
  {| status_code := 200;
     json_result := Parsed (PDict [("checked", PInt 100); ("count", PNone)]) |}.

Definition resp_list_body : search_response :=
  {| status_code := 200; json_result := Parsed (PList []) |}.

Definition resp_string_body : search_response :=
  {| status_code := 200; json_result := Parsed (PStr "ok") |}.

Definition resp_ok : search_response :=
  {| status_code := 200;
     json_result := Parsed (PDict [("checked", PInt 100); ("count", PInt 3);
                                 ("hits", PList [PStr "alpha"])]) |}.

Definition resp_checked_99 : search_response :=
  {| status_code := 200;
     json_result := Parsed (PDict [("checked", PInt 99); ("count", PInt 3);
                                 ("hits", PList [])]) |}.

Definition resp_count_21 : search_response :=
  {| status_code := 200;
     json_result := Parsed (PDict [("checked", PInt 100); ("count", PInt 21);
                                 ("hits", PList [])]) |}.

Definition status (n : Z) : http_response :=
  {| h_status := n; h_transport_error := false |}.

(** A body the Simple-eStore server answers with 400, as the script's
    comments describe it: an empty [sku], or a [product_id] that differs
    from the id of the path. *)
Definition invalid_body (id : Z) (b : pyval) : bool :=
  match b with
  | PDict d =>
      match dict_get d "sku" PNone with
      | PStr "" => true
      | _ => false
      end
      || (dict_contains d "product_id"
          && py_ne_int (dict_get d "product_id" PNone) id)
  | _ => true
  end.

(** The field types the script's comment asks the bodies to match: strings
    for [sku] and [manufacturer], [int32] for the ids and the weight, and no
    other field. *)
Definition str_field (d : list (string * pyval)) (k : string) : bool :=
  match dict_get d k PNone with
  | PStr _ => true
  | _ => false
  end.

Definition int32_field (d : list (string * pyval)) (k : string) : bool :=
  match dict_get d k PNone with
  | PInt z => (-2147483648 <=? z)%Z && (z <=? 2147483647)%Z
  | _ => false
  end.

Definition struct_key (k : string) : bool :=
  existsb (String.eqb k)
    ["sku"; "manufacturer"; "category_id"; "weight"; "some_other_id";
     "product_id"].

Definition body_matches_struct (b : pyval) : bool :=
  match b with
  | PDict d =>
      str_field d "sku" && str_field d "manufacturer"
      && int32_field d "category_id" && int32_field d "weight"
      && int32_field d "some_other_id"
      && (negb (dict_contains d "product_id") || int32_field d "product_id")
      && forallb struct_key (map fst d)
  | _ => false
  end.

(* ------------------------------------------------------------------ *)
(** ** Helper lemmas *)

Lemma dict_get_absent (d : list (string * pyval)) k def :
  dict_contains d k = false -> dict_get d k def = def.
Proof.
  induction d as [| [k' v] d IH]; simpl; [reflexivity |].
  intros H. apply orb_false_iff in H as [H1 H2].
  rewrite H1. exact (IH H2).
Qed.

Lemma py_gt_int_numeric v n :
  py_numeric v = true -> exists b, py_gt_int v n = inr b.
Proof.
  destruct v as [| | | [] | | |]; simpl; intros H;
    try discriminate; eexists; reflexivity.
Qed.

Lemma py_gt_int_not_numeric v n :
  py_numeric v = false -> py_gt_int v n = inl TypeError.
Proof.
  destruct v as [| | | [] | | |]; simpl; intros H;
    try discriminate; reflexivity.
Qed.

Lemma task_success_iff t r :
  task_success t r = true <->
  h_transport_error r = false /\ ~ (400 <= h_status r < 600)%Z.
Proof.
  unfold task_success, run_task, locust_default; simpl.
  destruct (h_transport_error r).
  - split; [discriminate | intros [H _]; discriminate].
  - destruct ((400 <=? h_status r)%Z && (h_status r <? 500)%Z) eqn:E1.
    + apply andb_true_iff in E1 as [E1 E2].
      apply Z.leb_le in E1. apply Z.ltb_lt in E2.
      split; [discriminate | intros [_ H]; lia].
    + destruct ((500 <=? h_status r)%Z && (h_status r <? 600)%Z) eqn:E3.
      * apply andb_true_iff in E3 as [E3 E4].
        apply Z.leb_le in E3. apply Z.ltb_lt in E4.
        split; [discriminate | intros [_ H]; lia].
      * split; [intros _ | reflexivity].
        split; [reflexivity |].
        apply andb_false_iff in E1, E3.
        destruct E1 as [E1 | E1], E3 as [E3 | E3];
          rewrite ?Z.leb_gt, ?Z.ltb_ge in *; lia.
Qed.

(* ------------------------------------------------------------------ *)
(** ** The search validator *)




(** C2 (counterexample): a status-200 body that parses as the JSON array
    [[]] makes [data.get] raise [AttributeError] out of the task. *)
Lemma C2_array_body_raises :
  search_validate py_str_scalars resp_list_body = Raised AttributeError.
Proof. reflexivity. Qed.

(** C2 (amended): the validator records exactly one outcome (success or a
    named failure) on every response except the raising ones, all with
    status 200: a body on which [resp.json()] raises an exception other
    than [json.JSONDecodeError] ([ValueError] for an integer literal over
    the int/str digit limit, [RecursionError] for too deep a nesting), a
    body parsing to a non-object ([AttributeError]), or to an object with
    [checked == 100] and a [count] that is present but not a number
    ([TypeError]). *)
Theorem C2_search_records_iff py_str r :
  (exists o, search_validate py_str r = Recorded o) <-> ~ raising_response r.
Proof.
  unfold search_validate, raising_response.
  destruct (Z.eqb_spec (status_code r) 200) as [Hs | Hs]; simpl.
  - destruct (json_result r) as [v | | e] eqn:J.
    + destruct v as [ | | | | | | d ];
        try (split; [intros [o Ho]; discriminate |];
             intros H; exfalso; apply H; split; [exact Hs |];
             right; eexists; split; [reflexivity |]; left; intros d' Hd';
             discriminate).
      destruct (py_ne_int (dict_get d "checked" PNone) 100) eqn:E.
      * split; [intros _ H | eexists; reflexivity].
        destruct H as (_ & [[e He] | (v & Hv & Hor)]); [discriminate He |].
        injection Hv as <-.
        destruct Hor as [Hn | (d' & Hd' & E' & _)];
          [eapply Hn; reflexivity |].
        injection Hd' as <-. congruence.
      * destruct (py_numeric (dict_get d "count" (PInt 0))) eqn:N.
        -- destruct (py_gt_int_numeric _ 20 N) as [b ->].
           split; [intros _ H |].
           ++ destruct H as (_ & [[e He] | (v & Hv & Hor)]);
                [discriminate He |].
              injection Hv as <-.
              destruct Hor as [Hn | (d' & Hd' & _ & N')];
                [eapply Hn; reflexivity |].
              injection Hd' as <-. congruence.
           ++ intros _. destruct b; [| destruct (dict_contains d "hits")];
                simpl; eexists; reflexivity.
        -- rewrite (py_gt_int_not_numeric _ 20 N).
           split; [intros [o Ho]; discriminate |].
           intros H; exfalso; apply H; split; [exact Hs |].
           right. eexists; split; [reflexivity |]. right. exists d. auto.
    + split; [intros _ H | eexists; reflexivity].
      destruct H as (_ & [[e He] | (v & Hv & _)]); discriminate.
    + split; [intros [o Ho]; discriminate |].
      intros H; exfalso; apply H; split; [exact Hs |].
      left. exists e. reflexivity.
  - split; [intros _ [H _]; contradiction | eexists; reflexivity].
Qed.

(** C7 (counterexample): a status-200 body that is well-formed JSON but
    not an object (the string ["ok"]) has no [checked] field, yet no
    failure is recorded: [data.get] raises. *)
Lemma C7_string_body_raises :
  search_validate py_str_scalars resp_string_body = Raised AttributeError.
Proof. reflexivity. Qed.

(** C7 (amended): for a status-200 response whose body parses to a JSON
    object, if [checked != 100] (an absent [checked] reads as [None]) the
    validator records the failure ["checked != 100 (got <v>)"], [<v>] being
    [str()] of the observed value, whatever [count] and [hits] are. *)
Theorem C7_checked_failure py_str r d
  (Hs : status_code r = 200%Z) (J : json_result r = Parsed (PDict d))
  (E : py_ne_int (dict_get d "checked" PNone) 100 = true) :
  search_validate py_str r =
    Recorded (Failure ("checked != 100 (got "
                         ++ py_str (dict_get d "checked" PNone) ++ ")")) /\
  exists pre post,
    "checked != 100 (got " ++ py_str (dict_get d "checked" PNone) ++ ")" =
    pre ++ py_str (dict_get d "checked" PNone) ++ post.
Proof.
  split.
  - unfold search_validate. rewrite Hs, J. simpl. rewrite E. reflexivity.
  - exists "checked != 100 (got ", ")". reflexivity.
Qed.

Lemma C7_witness :
  search_validate py_str_scalars resp_checked_99 =
    Recorded (Failure ("checked != 100 (got "
                         ++ py_str_scalars (PInt 99) ++ ")")) /\
  exists pre post,
    "checked != 100 (got " ++ py_str_scalars (PInt 99) ++ ")" =
    pre ++ py_str_scalars (PInt 99) ++ post.
Proof.
  apply (C7_checked_failure py_str_scalars resp_checked_99
           [("checked", PInt 99); ("count", PInt 3); ("hits", PList [])]);
    reflexivity.
Defined.

(** C8 (counterexample): with [checked] 100, a missing [count] is not a
    failure (it reads as 0, and with [hits] present the response is a
    success), and a [count] of [null] with [hits] missing raises
    [TypeError] instead of recording ["bad payload"]. *)
Lemma C8_missing_count_not_bad_payload :
  search_validate py_str_scalars resp_no_count = Recorded Success /\
  search_validate py_str_scalars resp_null_count_no_hits = Raised TypeError.
Proof. split; reflexivity. Qed.

(** C8 (amended): for a status-200 response parsing to a JSON object with
    [checked == 100] and a [count] that is absent or a number, the
    validator records ["bad payload"] exactly when [count] (0 when absent)
    is above 20 or [hits] is absent, and success otherwise. *)
Theorem C8_bad_payload py_str r d
  (Hs : status_code r = 200%Z) (J : json_result r = Parsed (PDict d))
  (E : py_ne_int (dict_get d "checked" PNone) 100 = false)
  (N : py_numeric (dict_get d "count" (PInt 0)) = true) :
  exists b, py_gt_int (dict_get d "count" (PInt 0)) 20 = inr b /\
    search_validate py_str r =
      if b || negb (dict_contains d "hits")
      then Recorded (Failure "bad payload") else Recorded Success.
Proof.
  destruct (py_gt_int_numeric _ 20 N) as [b Hb].
  exists b. split; [exact Hb |].
  unfold search_validate. rewrite Hs, J. simpl. rewrite E, Hb.
  destruct b; reflexivity.
Qed.

Lemma C8_witness :
  exists b, py_gt_int (PInt 21) 20 = inr b /\
    search_validate py_str_scalars resp_count_21 =
      if b || negb (dict_contains [("checked", PInt 100); ("count", PInt 21);
                                   ("hits", PList [])] "hits")
      then Recorded (Failure "bad payload") else Recorded Success.
Proof.
  apply (C8_bad_payload py_str_scalars resp_count_21
           [("checked", PInt 100); ("count", PInt 21); ("hits", PList [])]);
    reflexivity.
Defined.

(** C9: with the index drawn by [random.choice] in range, the search task
    sends [GET /v1/products/search?q=<q>&limit=20] for a term [q] of
    [QUERIES], named ["/v1/products/search"], with a 2 s timeout. *)
Theorem C9_search_request_shape i (Hi : (i < length QUERIES)%nat) :
  exists q, In q QUERIES /\
    search_request i =
      Some {| method := "GET";
              url := "/v1/products/search?q=" ++ q ++ "&limit=20";
              req_name := "/v1/products/search";
              timeout := 2;
              catch_response := true |}.
Proof.
  unfold search_request.
  destruct (nth_error QUERIES i) as [q |] eqn:E.
  - exists q. split; [eapply nth_error_In; exact E | reflexivity].
  - apply nth_error_None in E. lia.
Qed.

Lemma C9_witness :
  exists q, In q QUERIES /\
    search_request 10 =
      Some {| method := "GET";
              url := "/v1/products/search?q=" ++ q ++ "&limit=20";
              req_name := "/v1/products/search";
              timeout := 2;
              catch_response := true |}.
Proof. apply (C9_search_request_shape 10). simpl. lia. Defined.

(** C10: a status-200 object body with [checked == 100], [hits] present
    and no [count] is recorded as a success ([count] defaults to 0). *)
Theorem C10_missing_count_counts_as_zero py_str r d
  (Hs : status_code r = 200%Z) (J : json_result r = Parsed (PDict d))
  (E : py_ne_int (dict_get d "checked" PNone) 100 = false)
  (Hh : dict_contains d "hits" = true)
  (Hc : dict_contains d "count" = false) :
  search_validate py_str r = Recorded Success.
Proof.
  unfold search_validate. rewrite Hs, J. simpl. rewrite E.
  rewrite (dict_get_absent d "count" (PInt 0) Hc). simpl.
  rewrite Hh. reflexivity.
Qed.

Lemma C10_witness :
  search_validate py_str_scalars resp_no_count = Recorded Success.
Proof.
  apply (C10_missing_count_counts_as_zero py_str_scalars resp_no_count
           [("checked", PInt 100); ("hits", PList [])]);
    reflexivity.
Defined.

(* ------------------------------------------------------------------ *)
(** ** The Simple-eStore tasks *)

(** C3 (counterexample): a 404 response to the GET or the POST on id
    54321 is recorded as a failure, and a 200 response as a success. *)
Lemma C3_not_found_is_failure :
  task_success get_404 (status 404) = false /\
  task_success post_404 (status 404) = false /\
  task_success get_404 (status 200) = true.
Proof. repeat split. Qed.

(** C3 (amended): [get_404] sends [GET /v1/products/54321] and [post_404]
    sends [POST /v1/products/54321/details] with [VALID_BODY]; neither
    inspects the response, and Locust records success exactly when there
    is no transport error and the status is outside 400-599 (so a 404 is a
    failure). *)
Theorem C3_not_found_tasks_default_rule :
  e_method (task_request get_404) = "GET" /\
  e_path (task_request get_404) = "/v1/products/54321" /\
  e_method (task_request post_404) = "POST" /\
  e_path (task_request post_404) = "/v1/products/54321/details" /\
  e_body (task_request post_404) = Some VALID_BODY /\
  forall r,
    (task_success get_404 r = true <->
       h_transport_error r = false /\ ~ (400 <= h_status r < 600)%Z) /\
    (task_success post_404 r = true <->
       h_transport_error r = false /\ ~ (400 <= h_status r < 600)%Z).
Proof.
  repeat (split; [reflexivity |]).
  intros r; split; apply task_success_iff.
Qed.

(** C4 (counterexample): a 500 response to the GET on id 50000 or to the
    POST on id 99999 is recorded as a failure. *)
Lemma C4_server_error_is_failure :
  task_success get_500 (status 500) = false /\
  task_success post_500 (status 500) = false.
Proof. split; reflexivity. Qed.

(** C4 (amended): [get_500] sends [GET /v1/products/50000] and [post_500]
    sends [POST /v1/products/99999/details] with [VALID_BODY]; both are
    recorded as success exactly when there is no transport error and the
    status is outside 400-599 (so a 500 is a failure). *)
Theorem C4_fault_tasks_default_rule :
  e_method (task_request get_500) = "GET" /\
  e_path (task_request get_500) = "/v1/products/50000" /\
  e_method (task_request post_500) = "POST" /\
  e_path (task_request post_500) = "/v1/products/99999/details" /\
  e_body (task_request post_500) = Some VALID_BODY /\
  forall r,
    (task_success get_500 r = true <->
       h_transport_error r = false /\ ~ (400 <= h_status r < 600)%Z) /\
    (task_success post_500 r = true <->
       h_transport_error r = false /\ ~ (400 <= h_status r < 600)%Z).
Proof.
  repeat (split; [reflexivity |]).
  intros r; split; apply task_success_iff.
Qed.

(** C5 (counterexample): a 400 response to either invalid-body POST is
    recorded as a failure. *)
Lemma C5_bad_request_is_failure :
  task_success post_400_missing (status 400) = false /\
  task_success post_400_mismatch (status 400) = false.
Proof. split; reflexivity. Qed.

(** C5 (amended): [post_400_missing] and [post_400_mismatch] post
    [INVALID_BODY_MISSING] (with [sku] the empty string) and
    [MISMATCH_ID_BODY] (with [product_id] 999) to
    [/v1/products/12345/details]; both are recorded as success exactly when
    there is no transport error and the status is outside 400-599 (so a
    400 is a failure). *)
Theorem C5_invalid_body_tasks_default_rule :
  e_path (task_request post_400_missing) = "/v1/products/12345/details" /\
  e_body (task_request post_400_missing) = Some INVALID_BODY_MISSING /\
  (exists kvs, INVALID_BODY_MISSING = PDict kvs /\
               dict_get kvs "sku" PNone = PStr "") /\
  e_path (task_request post_400_mismatch) = "/v1/products/12345/details" /\
  e_body (task_request post_400_mismatch) = Some MISMATCH_ID_BODY /\
  (exists kvs, MISMATCH_ID_BODY = PDict kvs /\
               dict_get kvs "product_id" PNone = PInt 999) /\
  forall r,
    (task_success post_400_missing r = true <->
       h_transport_error r = false /\ ~ (400 <= h_status r < 600)%Z) /\
    (task_success post_400_mismatch r = true <->
       h_transport_error r = false /\ ~ (400 <= h_status r < 600)%Z).
Proof.
  repeat (split; [first [reflexivity | eexists; split; reflexivity] |]).
  intros r; split; apply task_success_iff.
Qed.

(** C6 (counterexample): a 201 response to the GET on id 12345 and a 200
    response to the POST of [VALID_BODY] are recorded as successes. *)
Lemma C6_other_2xx_is_success :
  task_success get_200 (status 201) = true /\
  task_success post_204 (status 200) = true.
Proof. split; reflexivity. Qed.

(** C6 (amended): [get_200] sends [GET /v1/products/12345] and [post_204]
    sends [POST /v1/products/12345/details] with [VALID_BODY]; both are
    recorded as success exactly when there is no transport error and the
    status is outside 400-599, so 200 and 204 are successes for either. *)
Theorem C6_existing_product_tasks_default_rule :
  e_method (task_request get_200) = "GET" /\
  e_path (task_request get_200) = "/v1/products/12345" /\
  e_method (task_request post_204) = "POST" /\
  e_path (task_request post_204) = "/v1/products/12345/details" /\
  e_body (task_request post_204) = Some VALID_BODY /\
  forall r,
    (task_success get_200 r = true <->
       h_transport_error r = false /\ ~ (400 <= h_status r < 600)%Z) /\
    (task_success post_204 r = true <->
       h_transport_error r = false /\ ~ (400 <= h_status r < 600)%Z).
Proof.
  repeat (split; [reflexivity |]).
  intros r; split; apply task_success_iff.
Qed.

(* ------------------------------------------------------------------ *)
(** ** Further properties of the search validator *)

Lemma uint_to_string_inj u u' :
  uint_to_string u = uint_to_string u' -> u = u'.
Proof.
  revert u'.
  induction u; destruct u'; simpl; intros H;
    try discriminate; try reflexivity;
    injection H as H; f_equal; auto.
Qed.

Lemma z_to_dec_inj a b : z_to_dec a = z_to_dec b -> a = b.
Proof.
  unfold z_to_dec. intros H.
  apply DecimalZ.to_int_inj.
  destruct (Z.to_int a) as [u | u], (Z.to_int b) as [u' | u'].
  - f_equal. now apply uint_to_string_inj.
  - destruct u; discriminate H.
  - destruct u'; discriminate H.
  - injection H as H. f_equal. now apply uint_to_string_inj.
Qed.

(** A response with a status other than 200 is recorded as the failure
    ["HTTP <status>"] whatever its body; two such responses get the same
    result exactly when their statuses are equal. *)
Theorem search_non200_failure_by_status py_str r1 r2
  (H1 : status_code r1 <> 200%Z) (H2 : status_code r2 <> 200%Z) :
  search_validate py_str r1 =
    Recorded (Failure ("HTTP " ++ z_to_dec (status_code r1))) /\
  (search_validate py_str r1 = search_validate py_str r2 <->
   status_code r1 = status_code r2).
Proof.
  unfold search_validate.
  destruct (Z.eqb_spec (status_code r1) 200) as [E1 | _]; [contradiction |].
  destruct (Z.eqb_spec (status_code r2) 200) as [E2 | _]; [contradiction |].
  simpl. split; [reflexivity |]. split.
  - intros H. injection H as H. now apply z_to_dec_inj.
  - intros ->. reflexivity.
Qed.

Lemma search_non200_failure_by_status_witness :
  search_validate py_str_scalars {| status_code := 404; json_result := DecodeError |} =
    Recorded (Failure ("HTTP " ++ z_to_dec
      (status_code {| status_code := 404; json_result := DecodeError |}))) /\
  (search_validate py_str_scalars {| status_code := 404; json_result := DecodeError |} =
  search_validate py_str_scalars {| status_code := 503; json_result := json_result resp_ok |} <->
  status_code {| status_code := 404; json_result := DecodeError |} =
  status_code {| status_code := 503; json_result := json_result resp_ok |}).
Proof.
  apply search_non200_failure_by_status; simpl; discriminate.
Defined.

(** Every recorded success comes from a status-200 object body with
    [checked == 100], a [count] (0 when absent) not above 20 and a [hits]
    field. *)
Theorem search_success_sound py_str r :
  search_validate py_str r = Recorded Success -> validated_success r.
Proof.
  unfold search_validate, validated_success.
  destruct (Z.eqb_spec (status_code r) 200) as [Hs | Hs]; simpl;
    [| discriminate].
  intros H. split; [exact Hs |].
  destruct (json_result r) as [v | | e]; [| discriminate | discriminate].
  destruct v as [ | | | | | | d]; try discriminate.
  exists d. split; [reflexivity |].
  destruct (py_ne_int (dict_get d "checked" PNone) 100); [discriminate |].
  destruct (py_gt_int (dict_get d "count" (PInt 0)) 20) as [e | []];
    try discriminate.
  destruct (dict_contains d "hits"); [| discriminate]. auto.
Qed.

Lemma search_success_sound_witness : validated_success resp_ok.
Proof. apply (search_success_sound py_str_scalars). reflexivity. Defined.

(** The failure ["Invalid JSON"] is recorded exactly for a status-200
    response on which [resp.json()] raises [json.JSONDecodeError]. *)
Theorem search_invalid_json_iff py_str r :
  search_validate py_str r = Recorded (Failure "Invalid JSON") <->
  status_code r = 200%Z /\ json_result r = DecodeError.
Proof.
  unfold search_validate.
  destruct (Z.eqb_spec (status_code r) 200) as [Hs | Hs]; simpl.
  2:{ split; [intros H; discriminate H | intros [H _]; contradiction]. }
  destruct (json_result r) as [v | | e].
  2:{ split; [intros _; auto | reflexivity]. }
  2:{ split; [intros H; discriminate H | intros [_ H]; discriminate H]. }
  split; [| intros [_ H]; discriminate H].
  intros H. exfalso.
  destruct v as [ | | | | | | d]; try discriminate H.
  destruct (py_ne_int (dict_get d "checked" PNone) 100);
    [simpl in H; discriminate H |].
  destruct (py_gt_int (dict_get d "count" (PInt 0)) 20) as [e | []];
    try discriminate H.
  destruct (dict_contains d "hits"); discriminate H.
Qed.

(** The failure ["bad payload"] is recorded exactly for a status-200 object
    body with [checked == 100] whose [count] (0 when absent) is above 20,
    or is not above 20 while [hits] is missing. *)
Theorem search_bad_payload_iff py_str r :
  search_validate py_str r = Recorded (Failure "bad payload") <->
  status_code r = 200%Z /\
  exists d, json_result r = Parsed (PDict d) /\
    py_ne_int (dict_get d "checked" PNone) 100 = false /\
    (py_gt_int (dict_get d "count" (PInt 0)) 20 = inr true \/
     (py_gt_int (dict_get d "count" (PInt 0)) 20 = inr false /\
      dict_contains d "hits" = false)).
Proof.
  unfold search_validate.
  destruct (Z.eqb_spec (status_code r) 200) as [Hs | Hs]; simpl.
  2:{ split; [intros H; discriminate H | intros [H _]; contradiction]. }
  destruct (json_result r) as [v | | e]; [destruct v as [ | | | | | | d] | |];
    try (split; [intros H; discriminate H | intros (_ & d' & J & _);
                                            discriminate J]).
  split.
  - intros H. split; [exact Hs |]. exists d. split; [reflexivity |].
    destruct (py_ne_int (dict_get d "checked" PNone) 100);
      [simpl in H; discriminate H |].
    split; [reflexivity |].
    destruct (py_gt_int (dict_get d "count" (PInt 0)) 20) as [e | []];
      [discriminate H | left; reflexivity |].
    right. split; [reflexivity |].
    destruct (dict_contains d "hits"); [discriminate H | reflexivity].
  - intros (_ & d' & J & E & G). injection J as <-. rewrite E.
    destruct G as [G | [G C]]; rewrite G; [reflexivity |].
    rewrite C. reflexivity.
Qed.

Lemma dict_get_cons_other k v d k' def :
  k' <> k -> dict_get ((k, v) :: d) k' def = dict_get d k' def.
Proof. simpl. intros H. apply String.eqb_neq in H. now rewrite H. Qed.

Lemma dict_contains_cons_other k v d k' :
  k' <> k -> dict_contains ((k, v) :: d) k' = dict_contains d k'.
Proof. simpl. intros H. apply String.eqb_neq in H. now rewrite H. Qed.

(** Fields other than [checked], [count] and [hits] do not affect the
    result: adding one to the object leaves it unchanged. *)
Theorem search_ignores_other_fields py_str s k v d
  (Hk : k <> "checked" /\ k <> "count" /\ k <> "hits") :
  search_validate py_str
    {| status_code := s; json_result := Parsed (PDict ((k, v) :: d)) |} =
  search_validate py_str
    {| status_code := s; json_result := Parsed (PDict d) |}.
Proof.
  destruct Hk as (H1 & H2 & H3).
  unfold search_validate; cbn [status_code json_result].
  rewrite !(dict_get_cons_other k v d "checked") by congruence.
  rewrite (dict_get_cons_other k v d "count") by congruence.
  rewrite (dict_contains_cons_other k v d "hits") by congruence.
  reflexivity.
Qed.

Lemma search_ignores_other_fields_witness :
  search_validate py_str_scalars
    {| status_code := 200;
       json_result := Parsed (PDict (("took_ms", PInt 5)
                                   :: [("checked", PInt 100); ("hits", PList [])])) |} =
  search_validate py_str_scalars
    {| status_code := 200;
       json_result := Parsed (PDict [("checked", PInt 100); ("hits", PList [])]) |}.
Proof.
  apply search_ignores_other_fields.
  repeat split; discriminate.
Defined.

Lemma dict_get_perm d1 d2 k def :
  NoDup (map fst d1) -> Permutation d1 d2 -> dict_get d1 k def = dict_get d2 k def.
Proof.
  intros Hnd Hp. induction Hp as [| [k1 v1] l l' Hp IH | [k1 v1] [k2 v2] l
                                 | l l' l'' Hp1 IH1 Hp2 IH2].
  - reflexivity.
  - simpl in *. inversion Hnd as [| ? ? _ Hnd']. rewrite (IH Hnd'). reflexivity.
  - simpl in *. inversion Hnd as [| ? ? Hn _].
    destruct (String.eqb_spec k k1), (String.eqb_spec k k2); auto.
    subst. exfalso. apply Hn. now left.
  - rewrite (IH1 Hnd). apply IH2.
    eapply Permutation_NoDup; [apply Permutation_map; exact Hp1 | exact Hnd].
Qed.

Lemma dict_contains_perm d1 d2 k :
  Permutation d1 d2 -> dict_contains d1 k = dict_contains d2 k.
Proof.
  intros Hp. induction Hp as [| [k1 v1] l l' Hp IH | [k1 v1] [k2 v2] l
                             | l l' l'' Hp1 IH1 Hp2 IH2]; simpl.
  - reflexivity.
  - now rewrite IH.
  - destruct (String.eqb k k1), (String.eqb k k2); reflexivity.
  - congruence.
Qed.

(** The order of the fields of the JSON object does not matter: two orders
    of the same (duplicate-free) object give the same result. *)
Theorem search_field_order_irrelevant py_str s d1 d2
  (Hnd : NoDup (map fst d1)) (Hp : Permutation d1 d2) :
  search_validate py_str {| status_code := s; json_result := Parsed (PDict d1) |} =
  search_validate py_str {| status_code := s; json_result := Parsed (PDict d2) |}.
Proof.
  unfold search_validate; cbn [status_code json_result].
  rewrite !(dict_get_perm d1 d2 _ _ Hnd Hp), (dict_contains_perm d1 d2 _ Hp).
  reflexivity.
Qed.

Lemma search_field_order_irrelevant_witness :
  search_validate py_str_scalars
    {| status_code := 200;
       json_result := Parsed (PDict [("hits", PList []); ("checked", PInt 100)]) |} =
  search_validate py_str_scalars
    {| status_code := 200;
       json_result := Parsed (PDict [("checked", PInt 100); ("hits", PList [])]) |}.
Proof.
  apply search_field_order_irrelevant.
  - repeat constructor; simpl; intuition discriminate.
  - apply perm_swap.
Defined.

(* ------------------------------------------------------------------ *)
(** ** Further properties of the Simple-eStore request catalogue *)

Lemma string_length_app s t :
  String.length (s ++ t) = (String.length s + String.length t)%nat.
Proof. induction s; simpl; auto. Qed.

Lemma string_app_cancel_r s1 s2 t : s1 ++ t = s2 ++ t -> s1 = s2.
Proof.
  revert s2.
  induction s1 as [| a s1 IH]; destruct s2 as [| b s2]; intros H; auto.
  - apply (f_equal String.length) in H.
    simpl in H. rewrite string_length_app in H. lia.
  - apply (f_equal String.length) in H.
    simpl in H. rewrite string_length_app in H. lia.
  - simpl in H. injection H as -> H. f_equal. auto.
Qed.

Lemma details_path_inj a b : details_path a = details_path b -> a = b.
Proof.
  unfold details_path. intros H. simpl in H. injection H as H.
  apply string_app_cancel_r in H. now apply z_to_dec_inj.
Qed.

(** Every GET task sends [GET /v1/products/<id>] with no headers and no
    body, every POST task sends [POST /v1/products/<id>/details] with a JSON
    content type and a body, and [<id>] is always one of the four ids. *)
Theorem estore_request_shape t :
  (e_method (task_request t) = "GET" /\ e_headers (task_request t) = [] /\
   e_body (task_request t) = None /\
   exists id, e_path (task_request t) = product_path id /\
              In id [PRODUCT_OK; PRODUCT_404; PRODUCT_GET_500; PRODUCT_POST_500])
  \/
  (e_method (task_request t) = "POST" /\
   e_headers (task_request t) = json_headers /\
   (exists b, e_body (task_request t) = Some b) /\
   exists id, e_path (task_request t) = details_path id /\
              In id [PRODUCT_OK; PRODUCT_404; PRODUCT_GET_500; PRODUCT_POST_500]).
Proof.
  destruct t; [left | left | left | right | right | right | right | right];
    repeat split; try (eexists; reflexivity);
    (eexists; split; [reflexivity | simpl; tauto]).
Qed.

(** The only tasks that post a body the server rejects (an empty [sku], or
    a [product_id] other than the path id) are the two 400 tasks. *)
Theorem estore_invalid_bodies_only_in_400_tasks t id b
  (Hp : e_path (task_request t) = details_path id)
  (Hb : e_body (task_request t) = Some b) :
  invalid_body id b = true <-> t = post_400_missing \/ t = post_400_mismatch.
Proof.
  destruct t; cbn [task_request post_req get_req e_path e_body] in Hp, Hb;
    try discriminate Hb;
    apply details_path_inj in Hp; subst id; injection Hb as <-;
    vm_compute; split; intros H;
    first [ reflexivity | left; reflexivity | right; reflexivity
          | discriminate H | destruct H as [H | H]; discriminate H ].
Qed.

Lemma estore_invalid_bodies_only_in_400_tasks_witness :
  invalid_body PRODUCT_OK MISMATCH_ID_BODY = true <->
  post_400_mismatch = post_400_missing \/ post_400_mismatch = post_400_mismatch.
Proof.
  apply (estore_invalid_bodies_only_in_400_tasks post_400_mismatch PRODUCT_OK);
    reflexivity.
Defined.

(** Every body a task posts has the server struct's field types: string
    [sku] and [manufacturer], [int32] [category_id], [weight],
    [some_other_id] and (when present) [product_id], and no other field. *)
Theorem estore_bodies_match_struct t b :
  e_body (task_request t) = Some b -> body_matches_struct b = true.
Proof.
  destruct t; simpl; intros H; try discriminate H;
    injection H as <-; reflexivity.
Qed.

Lemma estore_bodies_match_struct_witness :
  body_matches_struct INVALID_BODY_MISSING = true.
Proof. apply (estore_bodies_match_struct post_400_missing). reflexivity. Defined.

(** The eight tasks report under eight distinct statistics names. *)
Theorem estore_task_names_distinct t1 t2 :
  e_name (task_request t1) = e_name (task_request t2) -> t1 = t2.
Proof.
  destruct t1, t2; simpl; intros H; try reflexivity; discriminate H.
Qed.

Lemma estore_task_names_distinct_witness : post_404 = post_404.
Proof. apply estore_task_names_distinct. reflexivity. Defined.
